(** * CGRPCZlib.h: the zlib shim of grpc-swift-nio-transport

    [Sources/CGRPCNIOTransportZlib/include/CGRPCZlib.h] is a header of ten
    [static inline] functions.  Nine of them rename an entry point of zlib and
    forward their arguments to it; the tenth converts a [void *] into a
    [Bytef *].

    The functions are embedded as computations in a state monad over the
    memory of the process.  zlib itself is not part of the repository: its
    entry points, and the two constants of [zlib.h] that the init macros
    capture, are parameters of the embedding. *)

From Stdlib Require Import ZArith String Ascii Bool Lia.
From stdpp Require Import base gmap.

Local Open Scope Z_scope.

(** ** C data *)

Module C.

(** [int] is a 32-bit signed integer, [unsigned long] (zlib's [uLong]) a
    64-bit unsigned one; both are carried by [Z]. *)
Definition int := Z.
Definition uLong := Z.

Definition int_min : Z := - 2 ^ 31.
Definition int_max : Z := 2 ^ 31 - 1.

Definition in_int (z : Z) : Prop := int_min <= z <= int_max.

(** The conversion [(int) z]: reduction modulo [2^32] into the signed
    range. *)
Definition to_int (z : Z) : int := (z + 2 ^ 31) mod 2 ^ 32 - 2 ^ 31.

(** The object types the header mentions. *)
Inductive ctype : Type :=
| void
| Bytef
| z_stream_s.

(** A pointer is an address tagged with the type it points to; the null
    pointer is address zero. *)
Record pointer (t : ctype) : Type := Ptr { address : Z }.

Arguments Ptr {t} _.
Arguments address {t} _.

Definition NULL {t : ctype} : pointer t := Ptr 0.

(** The pointer conversion [(T * ) p]: the address is kept, only the static
    type changes. *)
Definition cast {s : ctype} (t : ctype) (p : pointer s) : pointer t :=
  Ptr (address p).

Definition z_streamp : Type := pointer z_stream_s.

End C.

Import C.

(** ** Computations over the memory of the process *)

Definition M (World A : Type) : Type := World -> A * World.

Definition ret {World A : Type} (a : A) : M World A :=
  fun w => (a, w).

Definition bind {World A B : Type} (c : M World A) (k : A -> M World B)
  : M World B :=
  fun w => let (a, w') := c w in k a w'.

Notation "'let!' x ':=' c 'in' k" := (bind c (fun x => k))
  (at level 10, x name, c at level 100, k at level 200).

(** ** Status codes and constants of [zlib.h] *)

Definition Z_OK : int := 0.
Definition Z_STREAM_END : int := 1.
Definition Z_STREAM_ERROR : int := -2.
Definition Z_DATA_ERROR : int := -3.
Definition Z_MEM_ERROR : int := -4.
Definition Z_BUF_ERROR : int := -5.
Definition Z_VERSION_ERROR : int := -6.

Definition Z_DEFLATED : int := 8.
Definition Z_DEFAULT_COMPRESSION : int := -1.
Definition Z_DEFAULT_STRATEGY : int := 0.

(** ** The shim *)

Section Shim.

Context {World : Type}.

(** What [#include <zlib.h>] fixes when the shim is compiled: the version
    string of the header and the size of its [z_stream]. *)
Variable ZLIB_VERSION : string.
Variable sizeof_z_stream : Z.

(** The entry points of the zlib library the program is linked with. *)
Variable deflateInit2_ :
  z_streamp -> int -> int -> int -> int -> int -> string -> int -> M World int.
Variable inflateInit2_ : z_streamp -> int -> string -> int -> M World int.
Variable deflateBound : z_streamp -> uLong -> M World uLong.
Variable deflate : z_streamp -> int -> M World int.
Variable deflateReset : z_streamp -> M World int.
Variable deflateEnd : z_streamp -> M World int.
Variable inflate : z_streamp -> int -> M World int.
Variable inflateReset : z_streamp -> M World int.
Variable inflateEnd : z_streamp -> M World int.

(** [deflateInit2] and [inflateInit2] are macros of [zlib.h]: they call the
    underscore entry point and append the header's version string and
    [(int)sizeof(z_stream)]. *)
Definition deflateInit2 (strm : z_streamp)
    (level method windowBits memLevel strategy : int) : M World int :=
  deflateInit2_ strm level method windowBits memLevel strategy
                ZLIB_VERSION (to_int sizeof_z_stream).

Definition inflateInit2 (strm : z_streamp) (windowBits : int) : M World int :=
  inflateInit2_ strm windowBits ZLIB_VERSION (to_int sizeof_z_stream).

(** The ten functions of the header, in the order of the file. *)

Definition CGRPCNIOTransportZlib_deflateInit2 (stream : z_streamp)
    (level method windowBits memLevel strategy : int) : M World int :=
  let! r := deflateInit2 stream level method windowBits memLevel strategy in
  ret r.

Definition CGRPCNIOTransportZlib_deflateBound (strm : z_streamp)
    (sourceLen : uLong) : M World uLong :=
  let! r := deflateBound strm sourceLen in
  ret r.

Definition CGRPCNIOTransportZlib_deflate (strm : z_streamp) (flush : int)
  : M World int :=
  let! r := deflate strm flush in
  ret r.

Definition CGRPCNIOTransportZlib_deflateReset (strm : z_streamp)
  : M World int :=
  let! r := deflateReset strm in
  ret r.

Definition CGRPCNIOTransportZlib_deflateEnd (strm : z_streamp)
  : M World int :=
  let! r := deflateEnd strm in
  ret r.

Definition CGRPCNIOTransportZlib_inflateInit2 (stream : z_streamp)
    (windowBits : int) : M World int :=
  let! r := inflateInit2 stream windowBits in
  ret r.

Definition CGRPCNIOTransportZlib_inflate (strm : z_streamp) (flush : int)
  : M World int :=
  let! r := inflate strm flush in
  ret r.

Definition CGRPCNIOTransportZlib_inflateReset (strm : z_streamp)
  : M World int :=
  let! r := inflateReset strm in
  ret r.

Definition CGRPCNIOTransportZlib_inflateEnd (strm : z_streamp)
  : M World int :=
  let! r := inflateEnd strm in
  ret r.

Definition CGRPCNIOTransportZlib_castVoidToBytefPointer (inp : pointer void)
  : M World (pointer Bytef) :=
  ret (cast Bytef inp).

End Shim.

Arguments CGRPCNIOTransportZlib_castVoidToBytefPointer {World} inp.


(** ** What [zlib.h] documents about the entry points

    The library code is outside the repository.  The facts below are the
    parts of its documented behaviour that decide what a caller of the shim
    observes; each is a property a linked library may or may not have, and a
    theorem that needs one takes it as a premise. *)

Section ZlibContract.

Context {World : Type}.

(** The library as built: the version string [zlibVersion()] reports and the
    size of [z_stream] it was compiled with. *)
Variable zlib_version : string.
Variable lib_sizeof_z_stream : Z.

(** [version[0]]: the first character of a C string, NUL for the empty one. *)
Definition first_char (s : string) : ascii :=
  match s with
  | EmptyString => zero
  | String c _ => c
  end.

(** "If the first character differs, the library code actually used is not
    compatible with the zlib.h header file used by the application"; the init
    entry points also compare the caller's [sizeof(z_stream)] with their
    own. *)
Definition compatible (version : string) (stream_size : int) : bool :=
  Ascii.eqb (first_char version) (first_char zlib_version)
  && (stream_size =? to_int lib_sizeof_z_stream).

(** "[deflateInit2] returns ... Z_VERSION_ERROR if the zlib library version
    is incompatible with the version assumed by the caller"; the check comes
    first and nothing has been written to the stream when it fails. *)
Definition deflateInit2_checks_version
    (deflateInit2_ :
       z_streamp -> int -> int -> int -> int -> int -> string -> int -> M World int)
  : Prop :=
  forall strm level method windowBits memLevel strategy version stream_size w,
    compatible version stream_size = false ->
    deflateInit2_ strm level method windowBits memLevel strategy
                  version stream_size w
    = (Z_VERSION_ERROR, w).

Definition inflateInit2_checks_version
    (inflateInit2_ : z_streamp -> int -> string -> int -> M World int)
  : Prop :=
  forall strm windowBits version stream_size w,
    compatible version stream_size = false ->
    inflateInit2_ strm windowBits version stream_size w = (Z_VERSION_ERROR, w).

(** [strm] points to a [z_stream] object of the application (it is not
    null and its allocator fields are usable); the init calls answer
    [Z_STREAM_ERROR] at once for a null [strm]. *)
Variable is_z_stream : World -> z_streamp -> Prop.

(** The configurations zlib accepts.  Level: "must be Z_DEFAULT_COMPRESSION,
    or between 0 and 9".  Method: "must be Z_DEFLATED".  Memory level 1..9,
    strategy [Z_DEFAULT_STRATEGY]..[Z_FIXED].  Window bits for compression:
    8..15 for the zlib format, negated for raw DEFLATE, 16 added for gzip; a
    256-byte window (8) is accepted, and widened, in the zlib format only.
    Window bits for decompression: -15..-8 for raw, and below 48 the low
    four bits give the window (8..15, or zero for the size in the stream
    header) while the bits above select the wrapper. *)
Definition deflate_parameters_valid
    (level method windowBits memLevel strategy : int) : Prop :=
  Z_DEFAULT_COMPRESSION <= level <= 9
  /\ method = Z_DEFLATED
  /\ 1 <= memLevel <= 9
  /\ Z_DEFAULT_STRATEGY <= strategy <= 4
  /\ (8 <= windowBits <= 15
      \/ -15 <= windowBits <= -9
      \/ 25 <= windowBits <= 31).

Definition inflate_windowBits_valid (windowBits : int) : Prop :=
  -15 <= windowBits <= -8
  \/ (0 <= windowBits <= 47
      /\ (windowBits mod 16 = 0 \/ 8 <= windowBits mod 16)).

(** "[deflateInit2] returns Z_OK if success, Z_MEM_ERROR if there was not
    enough memory, Z_STREAM_ERROR if any parameter is invalid": the
    parameters are validated before anything is allocated, so on a stream of
    the application and with a matching version the status is
    [Z_STREAM_ERROR] exactly for an invalid configuration. *)
Definition deflateInit2_validates_exactly
    (deflateInit2_ :
       z_streamp -> int -> int -> int -> int -> int -> string -> int -> M World int)
  : Prop :=
  forall strm level method windowBits memLevel strategy version stream_size w,
    compatible version stream_size = true ->
    is_z_stream w strm ->
    fst (deflateInit2_ strm level method windowBits memLevel strategy
                       version stream_size w)
    = Z_STREAM_ERROR
    <-> ~ deflate_parameters_valid level method windowBits memLevel strategy.

(** [inflateInit2] allocates its state before it looks at the window bits,
    so when memory runs out the status is [Z_MEM_ERROR] whatever they are;
    otherwise it is [Z_STREAM_ERROR] exactly for invalid window bits. *)
Definition inflateInit2_validates_exactly
    (inflateInit2_ : z_streamp -> int -> string -> int -> M World int)
  : Prop :=
  forall strm windowBits version stream_size w,
    compatible version stream_size = true ->
    is_z_stream w strm ->
    fst (inflateInit2_ strm windowBits version stream_size w) <> Z_MEM_ERROR ->
    fst (inflateInit2_ strm windowBits version stream_size w) = Z_STREAM_ERROR
    <-> ~ inflate_windowBits_valid windowBits.

End ZlibContract.

(** "[deflateEnd] returns Z_OK if success, Z_STREAM_ERROR if the stream state
    was inconsistent" (and likewise [inflateEnd]): once an End call has
    returned, the stream has no state left, so a further End call finds it
    inconsistent and touches nothing. *)
Definition end_rejects_ended {World : Type} (End : z_streamp -> M World int)
  : Prop :=
  forall strm w,
    End strm (snd (End strm w)) = (Z_STREAM_ERROR, snd (End strm w)).

(** [deflate] checks the stream and then its [flush] argument, which must
    be one of [Z_NO_FLUSH] (0) .. [Z_BLOCK] (5); any other value is answered
    with [Z_STREAM_ERROR] before anything is read or written. *)
Definition Z_BLOCK : int := 5.

Definition deflate_rejects_bad_flush {World : Type}
    (deflate : z_streamp -> int -> M World int) : Prop :=
  forall strm flush w,
    flush < 0 \/ Z_BLOCK < flush ->
    deflate strm flush w = (Z_STREAM_ERROR, w).

(** ** The properties the specification words for open and close *)

(** Closing twice in succession succeeds both times, the second call being a
    no-op. *)
Definition close_twice_succeeds {World : Type}
    (close : z_streamp -> M World int) (strm : z_streamp) (w : World) : Prop :=
  let (r1, w1) := close strm w in
  let (r2, w2) := close strm w1 in
  r1 = Z_OK /\ r2 = Z_OK /\ w2 = w1.

(** Open is refused exactly when the level is outside 0..9 or the window
    bits are outside 8..15. *)
Definition open_rejects_exactly_out_of_range {World : Type}
    (open : int -> int -> M World int) (w : World) : Prop :=
  forall level windowBits,
    fst (open level windowBits w) <> Z_OK
    <-> (level < 0 \/ 9 < level \/ windowBits < 8 \/ 15 < windowBits).

(** The status that reports a refused configuration is never returned by a
    later call that processes data on the opened stream. *)
Definition never_surfaces_mid_stream {World : Type}
    (process : int -> M World int) (w : World) : Prop :=
  forall flush, fst (process flush w) <> Z_STREAM_ERROR.

(** ** A model of the stream lifecycle of zlib

    An executable model of how zlib 1.3.1 opens and releases a stream
    ([deflateInit2_], [deflateEnd] in deflate.c; [inflateInit2_],
    [inflateReset2], [inflateEnd] in inflate.c): the version check, the
    validation of the parameters, and the allocation and release of the
    internal state.  Allocation never fails and the codec is not modelled.
    The model instantiates the premises above and runs the shim on concrete
    streams. *)

Module ZlibModel.

(** The state behind [strm->state], with the settings open recorded. *)
Inductive internal_state : Type :=
| DeflateState (level w_bits wrap mem_level strategy : int)
| InflateState (wrap w_bits : int).

(** The fields of [z_stream] the lifecycle touches; [state] is [None] for
    [Z_NULL]. *)
Record z_stream : Type := ZStream
  { total_in : uLong;
    total_out : uLong;
    state : option internal_state }.

(** The [z_stream] objects of the application, by address. *)
Abbreviation World := (gmap Z z_stream).

Definition zlib_version : string := "1.3.1".
Definition sizeof_z_stream : Z := 112.

Definition MAX_MEM_LEVEL : int := 9.
Definition Z_FIXED : int := 4.

(** [deflateInit2_] (deflate.c).  In order: the version check
    ([version[0]] against the library's own, [stream_size] against
    [sizeof(z_stream)]); the null check on [strm]; the default level;
    negative window bits select raw DEFLATE and window bits above 15 the
    gzip wrapper; then one test rejects any parameter out of range.  On
    success the state is allocated and [deflateReset] clears the totals. *)
Definition deflateInit2_ (strm : z_streamp)
    (level method windowBits memLevel strategy : int)
    (version : string) (stream_size : int) : M World int :=
  fun w =>
    if negb (compatible zlib_version sizeof_z_stream version stream_size)
    then (Z_VERSION_ERROR, w)
    else if address strm =? 0 then (Z_STREAM_ERROR, w)
    else
      match w !! address strm with
      | None => (Z_STREAM_ERROR, w)
      | Some s =>
          let level := if level =? Z_DEFAULT_COMPRESSION then 6 else level in
          if windowBits <? -15 then (Z_STREAM_ERROR, w)
          else
            let wrap :=
              if windowBits <? 0 then 0
              else if 15 <? windowBits then 2 else 1 in
            let windowBits :=
              if windowBits <? 0 then - windowBits
              else if 15 <? windowBits then windowBits - 16 else windowBits in
            if (memLevel <? 1) || (MAX_MEM_LEVEL <? memLevel)
               || negb (method =? Z_DEFLATED)
               || (windowBits <? 8) || (15 <? windowBits)
               || (level <? 0) || (9 <? level)
               || (strategy <? 0) || (Z_FIXED <? strategy)
               || ((windowBits =? 8) && negb (wrap =? 1))
            then (Z_STREAM_ERROR, w)
            else
              let windowBits := if windowBits =? 8 then 9 else windowBits in
              (Z_OK,
               <[address strm :=
                   ZStream 0 0
                     (Some (DeflateState level windowBits wrap memLevel
                                         strategy))]> w)
      end.

(** [inflateInit2_] with [inflateReset2] (inflate.c).  The version check and
    the null check come first; the state is allocated, then the window bits
    are decoded (negative for raw, [windowBits >> 4] for the wrapper, the low
    four bits for the size below 48) and checked; when they are refused the
    state is released again and [strm->state] is left null. *)
Definition inflateInit2_ (strm : z_streamp) (windowBits : int)
    (version : string) (stream_size : int) : M World int :=
  fun w =>
    if negb (compatible zlib_version sizeof_z_stream version stream_size)
    then (Z_VERSION_ERROR, w)
    else if address strm =? 0 then (Z_STREAM_ERROR, w)
    else
      match w !! address strm with
      | None => (Z_STREAM_ERROR, w)
      | Some s =>
          let refused :=
            (Z_STREAM_ERROR,
             <[address strm := ZStream (total_in s) (total_out s) None]> w) in
          if windowBits <? -15 then refused
          else
            let wrap :=
              if windowBits <? 0 then 0 else Z.shiftr windowBits 4 + 5 in
            let windowBits :=
              if windowBits <? 0 then - windowBits
              else if windowBits <? 48 then Z.land windowBits 15
                   else windowBits in
            if negb (windowBits =? 0)
               && ((windowBits <? 8) || (15 <? windowBits))
            then refused
            else
              (Z_OK,
               <[address strm :=
                   ZStream 0 0 (Some (InflateState wrap windowBits))]> w)
      end.

(** [deflateEnd] (deflate.c) and [inflateEnd] (inflate.c).  Each first
    checks the stream: a null [strm->state], or a state of the other codec,
    is inconsistent and gives [Z_STREAM_ERROR] with nothing touched.
    Otherwise the state is freed and [strm->state] set to null.  (zlib's
    [deflateEnd] answers [Z_DATA_ERROR] when data is still pending; no data
    flows in this model.) *)
Definition deflateEnd (strm : z_streamp) : M World int :=
  fun w =>
    match w !! address strm with
    | Some (ZStream t_in t_out (Some (DeflateState _ _ _ _ _))) =>
        (Z_OK, <[address strm := ZStream t_in t_out None]> w)
    | _ => (Z_STREAM_ERROR, w)
    end.

Definition inflateEnd (strm : z_streamp) : M World int :=
  fun w =>
    match w !! address strm with
    | Some (ZStream t_in t_out (Some (InflateState _ _))) =>
        (Z_OK, <[address strm := ZStream t_in t_out None]> w)
    | _ => (Z_STREAM_ERROR, w)
    end.

(** One zeroed [z_stream] at address 16, as the application provides it to
    open. *)
Definition strm16 : z_streamp := Ptr 16.

Definition one_stream : World := {[ 16 := ZStream 0 0 None ]}.

(** The same stream once opened for compression with the default settings of
    zlib: level 6, window bits 15, memory level 8. *)
Definition opened_stream : World :=
  snd (deflateInit2_ strm16 Z_DEFAULT_COMPRESSION Z_DEFLATED 15 8
         Z_DEFAULT_STRATEGY zlib_version (to_int sizeof_z_stream) one_stream).

(** [deflate] (deflate.c) up to the point where data is compressed.  The
    stream check comes first, then the range check of [flush]; either gives
    [Z_STREAM_ERROR] with nothing touched.  Past them the call belongs to the
    codec, which the model takes as given. *)
Definition deflate (codec : z_streamp -> int -> M World int)
    (strm : z_streamp) (flush : int) : M World int :=
  fun w =>
    match w !! address strm with
    | Some (ZStream _ _ (Some (DeflateState _ _ _ _ _))) =>
        if (Z_BLOCK <? flush) || (flush <? 0) then (Z_STREAM_ERROR, w)
        else codec strm flush w
    | _ => (Z_STREAM_ERROR, w)
    end.

(** The pointers that are streams of the application: not null, and the
    address of one of its [z_stream] objects. *)
Definition is_z_stream (w : World) (strm : z_streamp) : Prop :=
  address strm <> 0 /\ is_Some (w !! address strm).

End ZlibModel.


(** ** Clients of the header

    A client is any program that calls the nine zlib entry points the header
    renames and, between the calls, works on the memory itself: it points
    [next_in] and [next_out] at its buffers, reads [avail_out] or
    [total_out], allocates an output buffer of the size the bound gave.
    Every step may depend on the values the steps before it returned.  The
    same client can be linked in two ways: every call through the renamed
    wrapper, or every call straight to zlib. *)

Inductive zlib_call : Type :=
| call_deflateInit2 (stream : z_streamp)
    (level method windowBits memLevel strategy : int)
| call_deflateBound (strm : z_streamp) (sourceLen : uLong)
| call_deflate (strm : z_streamp) (flush : int)
| call_deflateReset (strm : z_streamp)
| call_deflateEnd (strm : z_streamp)
| call_inflateInit2 (stream : z_streamp) (windowBits : int)
| call_inflate (strm : z_streamp) (flush : int)
| call_inflateReset (strm : z_streamp)
| call_inflateEnd (strm : z_streamp).

(** [Call c k] makes the call [c] and goes on with its result; [Access m k]
    runs the client's own step [m] on the memory, a read or a write of any
    kind, and goes on with the number it yields. *)
Inductive client (World A : Type) : Type :=
| Done (a : A)
| Call (c : zlib_call) (k : Z -> client World A)
| Access (m : M World Z) (k : Z -> client World A).

Arguments Done {World A} a.
Arguments Call {World A} c k.
Arguments Access {World A} m k.

(** Running a client with a given way [h] of performing each call. *)
Fixpoint run {World A : Type} (h : zlib_call -> M World Z)
    (p : client World A) : M World A :=
  match p with
  | Done a => ret a
  | Call c k => bind (h c) (fun r => run h (k r))
  | Access m k => bind m (fun r => run h (k r))
  end.

Section Linking.

Context {World : Type}.
Variable ZLIB_VERSION : string.
Variable sizeof_z_stream : Z.
Variable deflateInit2_ :
  z_streamp -> int -> int -> int -> int -> int -> string -> int -> M World int.
Variable inflateInit2_ : z_streamp -> int -> string -> int -> M World int.
Variable deflateBound : z_streamp -> uLong -> M World uLong.
Variable deflate : z_streamp -> int -> M World int.
Variable deflateReset : z_streamp -> M World int.
Variable deflateEnd : z_streamp -> M World int.
Variable inflate : z_streamp -> int -> M World int.
Variable inflateReset : z_streamp -> M World int.
Variable inflateEnd : z_streamp -> M World int.

(** Each call made through the function of the header that renames it. *)
Definition through_shim (c : zlib_call) : M World Z :=
  match c with
  | call_deflateInit2 stream level method windowBits memLevel strategy =>
      CGRPCNIOTransportZlib_deflateInit2 ZLIB_VERSION sizeof_z_stream
        deflateInit2_ stream level method windowBits memLevel strategy
  | call_deflateBound strm sourceLen =>
      CGRPCNIOTransportZlib_deflateBound deflateBound strm sourceLen
  | call_deflate strm flush =>
      CGRPCNIOTransportZlib_deflate deflate strm flush
  | call_deflateReset strm =>
      CGRPCNIOTransportZlib_deflateReset deflateReset strm
  | call_deflateEnd strm =>
      CGRPCNIOTransportZlib_deflateEnd deflateEnd strm
  | call_inflateInit2 stream windowBits =>
      CGRPCNIOTransportZlib_inflateInit2 ZLIB_VERSION sizeof_z_stream
        inflateInit2_ stream windowBits
  | call_inflate strm flush =>
      CGRPCNIOTransportZlib_inflate inflate strm flush
  | call_inflateReset strm =>
      CGRPCNIOTransportZlib_inflateReset inflateReset strm
  | call_inflateEnd strm =>
      CGRPCNIOTransportZlib_inflateEnd inflateEnd strm
  end.

(** Each call made to zlib directly, the two opens through the macros of
    the same [zlib.h]. *)
Definition through_zlib (c : zlib_call) : M World Z :=
  match c with
  | call_deflateInit2 stream level method windowBits memLevel strategy =>
      deflateInit2 ZLIB_VERSION sizeof_z_stream deflateInit2_
        stream level method windowBits memLevel strategy
  | call_deflateBound strm sourceLen => deflateBound strm sourceLen
  | call_deflate strm flush => deflate strm flush
  | call_deflateReset strm => deflateReset strm
  | call_deflateEnd strm => deflateEnd strm
  | call_inflateInit2 stream windowBits =>
      inflateInit2 ZLIB_VERSION sizeof_z_stream inflateInit2_
        stream windowBits
  | call_inflate strm flush => inflate strm flush
  | call_inflateReset strm => inflateReset strm
  | call_inflateEnd strm => inflateEnd strm
  end.

End Linking.


(** * Facts *)

(** ** The monad *)

Lemma ret_run {World A : Type} (a : A) (w : World) :
  ret a w = (a, w).
Proof. reflexivity. Qed.

Lemma bind_run {World A B : Type} (c : M World A) (k : A -> M World B)
    (w : World) :
  (let! x := c in k x) w = k (fst (c w)) (snd (c w)).
Proof.
  unfold bind. destruct (c w) as [a w']. reflexivity.
Qed.

(** [return f(args);] runs [f] and hands its result on untouched. *)
Lemma bind_ret_run {World A : Type} (c : M World A) (w : World) :
  (let! x := c in ret x) w = c w.
Proof.
  rewrite bind_run, ret_run. destruct (c w); reflexivity.
Qed.

(** A value that fits an [int] is unchanged by the conversion to [int]. *)
Lemma to_int_in_range (z : Z) : in_int z -> to_int z = z.
Proof.
  unfold in_int, int_min, int_max, to_int. intros Hz.
  rewrite Z.mod_small by lia. lia.
Qed.

Ltac forwarded := intros; apply bind_ret_run.

(** ** Each wrapper is its zlib call *)

Section Forwarding.

Context {World : Type}.
Variable ZLIB_VERSION : string.
Variable sizeof_z_stream : Z.
Variable deflateInit2_ :
  z_streamp -> int -> int -> int -> int -> int -> string -> int -> M World int.
Variable inflateInit2_ : z_streamp -> int -> string -> int -> M World int.
Variable deflateBound : z_streamp -> uLong -> M World uLong.
Variable deflate inflate : z_streamp -> int -> M World int.
Variable deflateReset deflateEnd inflateReset inflateEnd :
  z_streamp -> M World int.

Lemma deflateInit2_forwarded strm level method windowBits memLevel strategy w :
  CGRPCNIOTransportZlib_deflateInit2 ZLIB_VERSION sizeof_z_stream deflateInit2_
    strm level method windowBits memLevel strategy w
  = deflateInit2_ strm level method windowBits memLevel strategy
      ZLIB_VERSION (to_int sizeof_z_stream) w.
Proof. forwarded. Qed.

Lemma inflateInit2_forwarded strm windowBits w :
  CGRPCNIOTransportZlib_inflateInit2 ZLIB_VERSION sizeof_z_stream inflateInit2_
    strm windowBits w
  = inflateInit2_ strm windowBits ZLIB_VERSION (to_int sizeof_z_stream) w.
Proof. forwarded. Qed.

Lemma deflateEnd_forwarded strm w :
  CGRPCNIOTransportZlib_deflateEnd deflateEnd strm w = deflateEnd strm w.
Proof. forwarded. Qed.

Lemma inflateEnd_forwarded strm w :
  CGRPCNIOTransportZlib_inflateEnd inflateEnd strm w = inflateEnd strm w.
Proof. forwarded. Qed.

(** C1. Run from any memory [w] on any arguments, each of the nine renamed
    wrappers yields the pair (returned value, memory afterwards) of the zlib
    call it names, applied to the same arguments in the same order: the same
    value is returned and the memory changes exactly as that call changes
    it.  For the two init wrappers the zlib call is the macro of [zlib.h]. *)
Theorem wrappers_forward_to_zlib :
  forall (strm : z_streamp)
         (level method windowBits memLevel strategy flush : int)
         (sourceLen : uLong) (w : World),
    CGRPCNIOTransportZlib_deflateInit2 ZLIB_VERSION sizeof_z_stream deflateInit2_
      strm level method windowBits memLevel strategy w
    = deflateInit2 ZLIB_VERSION sizeof_z_stream deflateInit2_
        strm level method windowBits memLevel strategy w
    /\ CGRPCNIOTransportZlib_deflateBound deflateBound strm sourceLen w
       = deflateBound strm sourceLen w
    /\ CGRPCNIOTransportZlib_deflate deflate strm flush w
       = deflate strm flush w
    /\ CGRPCNIOTransportZlib_deflateReset deflateReset strm w
       = deflateReset strm w
    /\ CGRPCNIOTransportZlib_deflateEnd deflateEnd strm w
       = deflateEnd strm w
    /\ CGRPCNIOTransportZlib_inflateInit2 ZLIB_VERSION sizeof_z_stream
         inflateInit2_ strm windowBits w
       = inflateInit2 ZLIB_VERSION sizeof_z_stream inflateInit2_
           strm windowBits w
    /\ CGRPCNIOTransportZlib_inflate inflate strm flush w
       = inflate strm flush w
    /\ CGRPCNIOTransportZlib_inflateReset inflateReset strm w
       = inflateReset strm w
    /\ CGRPCNIOTransportZlib_inflateEnd inflateEnd strm w
       = inflateEnd strm w.
Proof.
  intros. repeat split; apply bind_ret_run.
Qed.

End Forwarding.

(** ** The pointer conversion *)

(** C9. For every pointer [p], the null pointer included,
    [CGRPCNIOTransportZlib_castVoidToBytefPointer p] returns the [Bytef]
    pointer with the address of [p] and leaves the memory as it was; the
    result is the same whatever the memory holds, so nothing is read from
    it. *)
Theorem castVoidToBytefPointer_keeps_address :
  forall (World : Type) (p : pointer void) (w w' : World),
    CGRPCNIOTransportZlib_castVoidToBytefPointer p w
    = (Ptr (address p), w)
    /\ fst (CGRPCNIOTransportZlib_castVoidToBytefPointer p w)
       = fst (CGRPCNIOTransportZlib_castVoidToBytefPointer p w')
    /\ CGRPCNIOTransportZlib_castVoidToBytefPointer NULL w = (NULL, w).
Proof.
  intros World p w w'.
  unfold CGRPCNIOTransportZlib_castVoidToBytefPointer, cast.
  rewrite !ret_run. repeat split.
Qed.

(** ** The lifecycle model has the documented behaviour *)

Lemma model_deflateInit2_checks_version :
  deflateInit2_checks_version ZlibModel.zlib_version ZlibModel.sizeof_z_stream
    ZlibModel.deflateInit2_.
Proof.
  intros strm level method windowBits memLevel strategy version stream_size w H.
  unfold ZlibModel.deflateInit2_. rewrite H. reflexivity.
Qed.

Lemma model_inflateInit2_checks_version :
  inflateInit2_checks_version ZlibModel.zlib_version ZlibModel.sizeof_z_stream
    ZlibModel.inflateInit2_.
Proof.
  intros strm windowBits version stream_size w H.
  unfold ZlibModel.inflateInit2_. rewrite H. reflexivity.
Qed.

Lemma model_stream_lookup (w : ZlibModel.World) (strm : z_streamp) :
  ZlibModel.is_z_stream w strm ->
  (address strm =? 0) = false /\ exists s, w !! address strm = Some s.
Proof.
  intros [Hnonnull [s Hs]]. split.
  - apply Z.eqb_neq. exact Hnonnull.
  - exists s. exact Hs.
Qed.

Ltac tests_to_props H :=
  repeat first
    [ rewrite orb_true_iff in H | rewrite orb_false_iff in H
    | rewrite andb_true_iff in H | rewrite andb_false_iff in H
    | rewrite negb_true_iff in H | rewrite negb_false_iff in H
    | rewrite Z.ltb_lt in H | rewrite Z.ltb_ge in H
    | rewrite Z.eqb_eq in H | rewrite Z.eqb_neq in H ].

Lemma model_deflateInit2_validates_exactly :
  deflateInit2_validates_exactly ZlibModel.zlib_version
    ZlibModel.sizeof_z_stream ZlibModel.is_z_stream ZlibModel.deflateInit2_.
Proof.
  intros strm level method windowBits memLevel strategy version stream_size w
         Hv Hstrm.
  apply model_stream_lookup in Hstrm as [Hnonnull [s Hs]].
  unfold ZlibModel.deflateInit2_, deflate_parameters_valid.
  rewrite Hv, Hnonnull, Hs. cbn [negb].
  unfold Z_DEFAULT_COMPRESSION, Z_DEFAULT_STRATEGY, Z_DEFLATED,
    ZlibModel.MAX_MEM_LEVEL, ZlibModel.Z_FIXED, Z_STREAM_ERROR, Z_OK.
  destruct (Z.ltb_spec windowBits (-15)); [cbn [fst]; lia |].
  destruct (Z.eqb_spec level (-1));
    destruct (Z.ltb_spec windowBits 0);
    destruct (Z.ltb_spec 15 windowBits);
    match goal with
    | |- fst (if ?c then _ else _) = _ <-> _ => destruct c eqn:Hc
    end;
    cbn [fst];
    tests_to_props Hc;
    lia.
Qed.

Lemma model_inflateInit2_validates_exactly :
  inflateInit2_validates_exactly ZlibModel.zlib_version
    ZlibModel.sizeof_z_stream ZlibModel.is_z_stream ZlibModel.inflateInit2_.
Proof.
  intros strm windowBits version stream_size w Hv Hstrm _.
  apply model_stream_lookup in Hstrm as [Hnonnull [s Hs]].
  unfold ZlibModel.inflateInit2_, inflate_windowBits_valid.
  rewrite Hv, Hnonnull, Hs. cbn [negb].
  unfold Z_STREAM_ERROR, Z_OK.
  change 15 with (Z.ones 4). rewrite Z.land_ones by lia.
  change (Z.ones 4) with 15. change (2 ^ 4) with 16.
  pose proof (Z.mod_pos_bound windowBits 16 ltac:(lia)) as Hmod.
  destruct (Z.ltb_spec windowBits (-15)); [cbn [fst]; lia |].
  destruct (Z.ltb_spec windowBits 0);
    destruct (Z.ltb_spec windowBits 48);
    match goal with
    | |- fst (if ?c then _ else _) = _ <-> _ => destruct c eqn:Hc
    end;
    cbn [fst];
    tests_to_props Hc;
    lia.
Qed.

Lemma model_deflate_rejects_bad_flush
    (codec : z_streamp -> int -> M ZlibModel.World int) :
  deflate_rejects_bad_flush (ZlibModel.deflate codec).
Proof.
  intros strm flush w Hflush. unfold ZlibModel.deflate.
  destruct (w !! address strm) as [[t_in t_out [[l b wr m s | wr b] |]] |];
    try reflexivity.
  destruct (Z.ltb_spec Z_BLOCK flush); destruct (Z.ltb_spec flush 0);
    try reflexivity.
  lia.
Qed.

Lemma model_deflateEnd_rejects_ended : end_rejects_ended ZlibModel.deflateEnd.
Proof.
  intros strm w. unfold ZlibModel.deflateEnd.
  destruct (w !! address strm) as [[t_in t_out [[l b wr m s | wr b] |]] |]
    eqn:Hlook; cbn [snd].
  - rewrite lookup_insert_eq. reflexivity.
  - rewrite Hlook. reflexivity.
  - rewrite Hlook. reflexivity.
  - rewrite Hlook. reflexivity.
Qed.

Lemma model_inflateEnd_rejects_ended : end_rejects_ended ZlibModel.inflateEnd.
Proof.
  intros strm w. unfold ZlibModel.inflateEnd.
  destruct (w !! address strm) as [[t_in t_out [[l b wr m s | wr b] |]] |]
    eqn:Hlook; cbn [snd].
  - rewrite Hlook. reflexivity.
  - rewrite lookup_insert_eq. reflexivity.
  - rewrite Hlook. reflexivity.
  - rewrite Hlook. reflexivity.
Qed.

(** The model on the calls an application of zlib makes: the default open,
    the gzip and raw variants, a 256-byte window widened to 512 bytes, and
    decompression with automatic header detection. *)
Example model_default_open :
  ZlibModel.opened_stream !! 16
  = Some (ZlibModel.ZStream 0 0
            (Some (ZlibModel.DeflateState 6 15 1 8 Z_DEFAULT_STRATEGY))).
Proof. reflexivity. Qed.

Example model_gzip_open :
  ZlibModel.deflateInit2_ ZlibModel.strm16 9 Z_DEFLATED 31 8 Z_DEFAULT_STRATEGY
    "1.3.1" 112 ZlibModel.one_stream
  = (Z_OK,
     {[ 16 := ZlibModel.ZStream 0 0
                (Some (ZlibModel.DeflateState 9 15 2 8 Z_DEFAULT_STRATEGY)) ]}).
Proof. reflexivity. Qed.

Example model_small_window_open :
  ZlibModel.deflateInit2_ ZlibModel.strm16 1 Z_DEFLATED 8 8 Z_DEFAULT_STRATEGY
    "1.3.1" 112 ZlibModel.one_stream
  = (Z_OK,
     {[ 16 := ZlibModel.ZStream 0 0
                (Some (ZlibModel.DeflateState 1 9 1 8 Z_DEFAULT_STRATEGY)) ]}).
Proof. reflexivity. Qed.

Example model_bad_method_refused :
  ZlibModel.deflateInit2_ ZlibModel.strm16 6 0 15 8 Z_DEFAULT_STRATEGY
    "1.3.1" 112 ZlibModel.one_stream
  = (Z_STREAM_ERROR, ZlibModel.one_stream).
Proof. reflexivity. Qed.

Example model_autodetect_open :
  ZlibModel.inflateInit2_ ZlibModel.strm16 47 "1.3.1" 112 ZlibModel.one_stream
  = (Z_OK,
     {[ 16 := ZlibModel.ZStream 0 0 (Some (ZlibModel.InflateState 7 15)) ]}).
Proof. reflexivity. Qed.

(** ** The version check at open *)

Section VersionCheck.

Context {World : Type}.
Variable ZLIB_VERSION : string.
Variable sizeof_z_stream : Z.
Variable zlib_version : string.
Variable lib_sizeof_z_stream : Z.
Variable deflateInit2_ :
  z_streamp -> int -> int -> int -> int -> int -> string -> int -> M World int.
Variable inflateInit2_ : z_streamp -> int -> string -> int -> M World int.

Hypothesis deflate_checked :
  deflateInit2_checks_version zlib_version lib_sizeof_z_stream deflateInit2_.
Hypothesis inflate_checked :
  inflateInit2_checks_version zlib_version lib_sizeof_z_stream inflateInit2_.

(** C10. The two init wrappers expand the init macros of [zlib.h] where the
    shim is compiled: every call hands the header's [ZLIB_VERSION] and
    [(int)sizeof(z_stream)] to the library's underscore entry point, and when
    the linked library, which checks them as documented, is incompatible
    with those two values, the call returns [Z_VERSION_ERROR] and leaves the
    memory, the stream included, as it was. *)
Theorem init_wrappers_pass_header_version :
  forall (strm : z_streamp) (level method windowBits memLevel strategy : int)
         (w : World),
    CGRPCNIOTransportZlib_deflateInit2 ZLIB_VERSION sizeof_z_stream deflateInit2_
      strm level method windowBits memLevel strategy w
    = deflateInit2_ strm level method windowBits memLevel strategy
        ZLIB_VERSION (to_int sizeof_z_stream) w
    /\ CGRPCNIOTransportZlib_inflateInit2 ZLIB_VERSION sizeof_z_stream
         inflateInit2_ strm windowBits w
       = inflateInit2_ strm windowBits ZLIB_VERSION (to_int sizeof_z_stream) w
    /\ (compatible zlib_version lib_sizeof_z_stream
          ZLIB_VERSION (to_int sizeof_z_stream) = false ->
        CGRPCNIOTransportZlib_deflateInit2 ZLIB_VERSION sizeof_z_stream
          deflateInit2_ strm level method windowBits memLevel strategy w
        = (Z_VERSION_ERROR, w)
        /\ CGRPCNIOTransportZlib_inflateInit2 ZLIB_VERSION sizeof_z_stream
             inflateInit2_ strm windowBits w
           = (Z_VERSION_ERROR, w)).
Proof.
  intros strm level method windowBits memLevel strategy w.
  rewrite deflateInit2_forwarded, inflateInit2_forwarded.
  split; [reflexivity |]. split; [reflexivity |].
  intros Hbad. split.
  - apply deflate_checked. exact Hbad.
  - apply inflate_checked. exact Hbad.
Qed.

End VersionCheck.

(** A shim compiled against the header of zlib 0.95, linked with the model
    of zlib 1.3.1: both opens are refused with [Z_VERSION_ERROR] and the
    stream is untouched. *)
Lemma init_wrappers_pass_header_version_witness :
  deflateInit2_checks_version ZlibModel.zlib_version ZlibModel.sizeof_z_stream
    ZlibModel.deflateInit2_
  /\ inflateInit2_checks_version ZlibModel.zlib_version
       ZlibModel.sizeof_z_stream ZlibModel.inflateInit2_
  /\ compatible ZlibModel.zlib_version ZlibModel.sizeof_z_stream
       "0.95" (to_int 112) = false
  /\ CGRPCNIOTransportZlib_deflateInit2 "0.95" 112 ZlibModel.deflateInit2_
       ZlibModel.strm16 6 Z_DEFLATED 15 8 Z_DEFAULT_STRATEGY
       ZlibModel.one_stream
     = (Z_VERSION_ERROR, ZlibModel.one_stream)
  /\ CGRPCNIOTransportZlib_inflateInit2 "0.95" 112 ZlibModel.inflateInit2_
       ZlibModel.strm16 15 ZlibModel.one_stream
     = (Z_VERSION_ERROR, ZlibModel.one_stream).
Proof.
  split; [exact model_deflateInit2_checks_version |].
  split; [exact model_inflateInit2_checks_version |].
  split; [reflexivity |].
  apply (init_wrappers_pass_header_version "0.95" 112
           ZlibModel.zlib_version ZlibModel.sizeof_z_stream
           ZlibModel.deflateInit2_ ZlibModel.inflateInit2_
           model_deflateInit2_checks_version
           model_inflateInit2_checks_version
           ZlibModel.strm16 6 Z_DEFLATED 15 8 Z_DEFAULT_STRATEGY
           ZlibModel.one_stream).
  reflexivity.
Defined.

(** ** Closing a closed stream *)

(** In the lifecycle model a stream opened for compression closes with
    [Z_OK] the first time and with [Z_STREAM_ERROR] the second time: closing
    twice does not succeed both times. *)
Lemma close_twice_counterexample :
  let close := CGRPCNIOTransportZlib_deflateEnd ZlibModel.deflateEnd in
  let opened :=
    snd (CGRPCNIOTransportZlib_deflateInit2 "1.3.1" 112 ZlibModel.deflateInit2_
           ZlibModel.strm16 6 Z_DEFLATED 15 8 Z_DEFAULT_STRATEGY
           ZlibModel.one_stream) in
  fst (close ZlibModel.strm16 opened) = Z_OK
  /\ fst (close ZlibModel.strm16 (snd (close ZlibModel.strm16 opened)))
     = Z_STREAM_ERROR
  /\ ~ close_twice_succeeds close ZlibModel.strm16 opened.
Proof.
  cbv zeta. split; [reflexivity |]. split; [reflexivity |].
  unfold close_twice_succeeds.
  rewrite !deflateEnd_forwarded.
  vm_compute. intros [_ [Hsecond _]]. discriminate Hsecond.
Qed.

(** An End call on a stream that an End call has already released changes
    nothing, however often it is repeated. *)
Lemma end_repeated_is_noop {World : Type} (End : z_streamp -> M World int)
    (strm : z_streamp) (w : World) (n : nat) :
  end_rejects_ended End ->
  Nat.iter n (fun m => snd (End strm m)) (snd (End strm w)) = snd (End strm w).
Proof.
  intros Hended. induction n as [| n IH]; [reflexivity |].
  rewrite Nat.iter_succ, IH, Hended. reflexivity.
Qed.

Lemma deflateEnd_wrapper_rejects_ended {World : Type}
    (deflateEnd : z_streamp -> M World int) :
  end_rejects_ended deflateEnd ->
  end_rejects_ended (CGRPCNIOTransportZlib_deflateEnd deflateEnd).
Proof.
  intros Hended strm w. rewrite !deflateEnd_forwarded. apply Hended.
Qed.

Lemma inflateEnd_wrapper_rejects_ended {World : Type}
    (inflateEnd : z_streamp -> M World int) :
  end_rejects_ended inflateEnd ->
  end_rejects_ended (CGRPCNIOTransportZlib_inflateEnd inflateEnd).
Proof.
  intros Hended strm w. rewrite !inflateEnd_forwarded. apply Hended.
Qed.

(** C4, amended. Closing a stream that has already been closed changes
    nothing and is reported: with a zlib whose End calls reject an ended
    stream, once an End wrapper has been called, every further call of it on
    that stream, however many, returns [Z_STREAM_ERROR] and leaves the memory
    as the first call left it. *)
Theorem close_after_close_reports_stream_error :
  forall (World : Type) (deflateEnd inflateEnd : z_streamp -> M World int),
    end_rejects_ended deflateEnd ->
    end_rejects_ended inflateEnd ->
    forall (strm : z_streamp) (w : World) (n : nat),
      (let close := CGRPCNIOTransportZlib_deflateEnd deflateEnd strm in
       let closed := snd (close w) in
       let closed_again := Nat.iter n (fun m => snd (close m)) closed in
       closed_again = closed
       /\ close closed_again = (Z_STREAM_ERROR, closed))
      /\ (let close := CGRPCNIOTransportZlib_inflateEnd inflateEnd strm in
          let closed := snd (close w) in
          let closed_again := Nat.iter n (fun m => snd (close m)) closed in
          closed_again = closed
          /\ close closed_again = (Z_STREAM_ERROR, closed)).
Proof.
  intros World deflateEnd inflateEnd Hdeflate Hinflate strm w n.
  apply deflateEnd_wrapper_rejects_ended in Hdeflate.
  apply inflateEnd_wrapper_rejects_ended in Hinflate.
  cbv zeta. split.
  - rewrite (end_repeated_is_noop _ strm w n Hdeflate).
    split; [reflexivity | apply Hdeflate].
  - rewrite (end_repeated_is_noop _ strm w n Hinflate).
    split; [reflexivity | apply Hinflate].
Qed.

(** The model's End calls reject an ended stream; on the opened stream at
    address 16, after the first close and three more, the next close returns
    [Z_STREAM_ERROR] and the memory is as the first close left it. *)
Lemma close_after_close_reports_stream_error_witness :
  end_rejects_ended ZlibModel.deflateEnd
  /\ end_rejects_ended ZlibModel.inflateEnd
  /\ (let close :=
        CGRPCNIOTransportZlib_deflateEnd ZlibModel.deflateEnd
          ZlibModel.strm16 in
      let closed := snd (close ZlibModel.opened_stream) in
      let closed_again := Nat.iter 3 (fun m => snd (close m)) closed in
      closed_again = closed
      /\ close closed_again = (Z_STREAM_ERROR, closed)).
Proof.
  split; [exact model_deflateEnd_rejects_ended |].
  split; [exact model_inflateEnd_rejects_ended |].
  exact (proj1 (close_after_close_reports_stream_error _
                  ZlibModel.deflateEnd ZlibModel.inflateEnd
                  model_deflateEnd_rejects_ended
                  model_inflateEnd_rejects_ended
                  ZlibModel.strm16 ZlibModel.opened_stream 3)).
Defined.

(** ** Which configurations open refuses *)


Section OpenValidation.

Context {World : Type}.
Variable ZLIB_VERSION : string.
Variable sizeof_z_stream : Z.
Variable zlib_version : string.
Variable lib_sizeof_z_stream : Z.
Variable is_z_stream : World -> z_streamp -> Prop.
Variable deflateInit2_ :
  z_streamp -> int -> int -> int -> int -> int -> string -> int -> M World int.
Variable inflateInit2_ : z_streamp -> int -> string -> int -> M World int.
Variable deflate : z_streamp -> int -> M World int.

Hypothesis deflate_validated :
  deflateInit2_validates_exactly zlib_version lib_sizeof_z_stream is_z_stream
    deflateInit2_.
Hypothesis inflate_validated :
  inflateInit2_validates_exactly zlib_version lib_sizeof_z_stream is_z_stream
    inflateInit2_.
Hypothesis flush_checked : deflate_rejects_bad_flush deflate.
Hypothesis header_matches :
  compatible zlib_version lib_sizeof_z_stream
    ZLIB_VERSION (to_int sizeof_z_stream) = true.


End OpenValidation.


(** ** Whole clients through the header *)

Section LinkingFacts.

Context {World : Type}.
Variable ZLIB_VERSION : string.
Variable sizeof_z_stream : Z.
Variable deflateInit2_ :
  z_streamp -> int -> int -> int -> int -> int -> string -> int -> M World int.
Variable inflateInit2_ : z_streamp -> int -> string -> int -> M World int.
Variable deflateBound : z_streamp -> uLong -> M World uLong.
Variable deflate inflate : z_streamp -> int -> M World int.
Variable deflateReset deflateEnd inflateReset inflateEnd :
  z_streamp -> M World int.

Lemma through_shim_is_through_zlib (c : zlib_call) (w : World) :
  through_shim ZLIB_VERSION sizeof_z_stream deflateInit2_ inflateInit2_
    deflateBound deflate deflateReset deflateEnd inflate inflateReset
    inflateEnd c w
  = through_zlib ZLIB_VERSION sizeof_z_stream deflateInit2_ inflateInit2_
      deflateBound deflate deflateReset deflateEnd inflate inflateReset
      inflateEnd c w.
Proof.
  destruct c; apply bind_ret_run.
Qed.

(** X1. A client of any length, which between its calls reads and writes
    the memory itself and whose every step may depend on the values earlier
    steps returned, computes the same result and leaves the same memory
    whether it makes its calls through the renamed wrappers or straight to
    zlib: the header is transparent to whole programs, not only to single
    calls. *)
Theorem shim_transparent_to_clients :
  forall (A : Type) (p : client World A) (w : World),
    run (through_shim ZLIB_VERSION sizeof_z_stream deflateInit2_ inflateInit2_
           deflateBound deflate deflateReset deflateEnd inflate inflateReset
           inflateEnd) p w
    = run (through_zlib ZLIB_VERSION sizeof_z_stream deflateInit2_
             inflateInit2_ deflateBound deflate deflateReset deflateEnd
             inflate inflateReset inflateEnd) p w.
Proof.
  intros A p. induction p as [a | c k IH | m k IH]; intros w.
  - reflexivity.
  - cbn [run]. rewrite !bind_run, through_shim_is_through_zlib.
    apply IH.
  - cbn [run]. rewrite !bind_run. apply IH.
Qed.

End LinkingFacts.

(** ** The pointer conversion loses nothing *)

(** X2. [CGRPCNIOTransportZlib_castVoidToBytefPointer] maps two pointers to
    the same [Bytef] pointer only when they are the same pointer, and its
    result is null exactly when its argument is null: a null check made
    after the conversion decides as one made before it. *)
Theorem castVoidToBytefPointer_injective :
  forall (World : Type) (p q : pointer void) (w : World),
    (fst (CGRPCNIOTransportZlib_castVoidToBytefPointer p w)
     = fst (CGRPCNIOTransportZlib_castVoidToBytefPointer q w)
     <-> p = q)
    /\ (fst (CGRPCNIOTransportZlib_castVoidToBytefPointer p w) = NULL
        <-> p = NULL).
Proof.
  intros World [a] [b] w.
  unfold CGRPCNIOTransportZlib_castVoidToBytefPointer, cast, NULL.
  rewrite !ret_run. cbn [fst address].
  split; split; intros H; inversion H; reflexivity.
Qed.
